(** * nyan token model: the token type taxonomy and the token entity

    Shallow embedding of [nyan/token.h].  The header holds the enumeration
    [token_type], the two constexpr classification functions
    [token_type_str] and [token_needs_payload], and the declaration of
    [class Token] (its fields and the signatures of its constructors and
    observers).  The bodies of the member functions live in a translation
    unit that is not part of the sources at hand; they are modelled from the
    specification and marked as such. *)

From Stdlib Require Import String Ascii ZArith List Bool Lia.
Import ListNotations.

Local Open Scope string_scope.
Local Open Scope Z_scope.

(** ** Token type taxonomy *)

(** [enum class token_type], enumerators in declaration order. *)
Inductive token_type : Type :=
| AS
| AT
| BANG
| COLON
| COMMA
| DEDENT
| DOT
| ENDFILE
| ENDLINE
| ELLIPSIS
| FLOAT
| FROM
| ID
| IMPORT
| INDENT
| INF
| INT
| INVALID
| LANGLE
| LBRACE
| LBRACKET
| LPAREN
| OPERATOR
| PASS
| RANGLE
| RBRACE
| RBRACKET
| RPAREN
| STRING.

(** [enum class bracket_type]. *)
Inductive bracket_type : Type :=
| PAREN
| ANGLE
| BRACKET
| BRACE.

(** Every enumerator of [token_type], in declaration order. *)
Definition all_token_types : list token_type :=
  [AS; AT; BANG; COLON; COMMA; DEDENT; DOT; ENDFILE; ENDLINE; ELLIPSIS;
   FLOAT; FROM; ID; IMPORT; INDENT; INF; INT; INVALID; LANGLE; LBRACE;
   LBRACKET; LPAREN; OPERATOR; PASS; RANGLE; RBRACE; RBRACKET; RPAREN;
   STRING].

(** The value of an enumerator in the underlying integer type: no
    enumerator has an initialiser, so they count up from zero. *)
Definition token_type_value (t : token_type) : Z :=
  match t with
  | AS => 0 | AT => 1 | BANG => 2 | COLON => 3 | COMMA => 4
  | DEDENT => 5 | DOT => 6 | ENDFILE => 7 | ENDLINE => 8 | ELLIPSIS => 9
  | FLOAT => 10 | FROM => 11 | ID => 12 | IMPORT => 13 | INDENT => 14
  | INF => 15 | INT => 16 | INVALID => 17 | LANGLE => 18 | LBRACE => 19
  | LBRACKET => 20 | LPAREN => 21 | OPERATOR => 22 | PASS => 23
  | RANGLE => 24 | RBRACE => 25 | RBRACKET => 26 | RPAREN => 27
  | STRING => 28
  end.

Definition token_type_eqb (a b : token_type) : bool :=
  token_type_value a =? token_type_value b.

(** The case labels of the switch in [token_type_str] with the string each
    one returns, in source order. *)
Definition token_type_str_cases : list (token_type * string) :=
  [ (AS, "as");
    (AT, "@");
    (BANG, "!");
    (COLON, "colon");
    (COMMA, "comma");
    (DEDENT, "dedentation");
    (DOT, "dot");
    (ELLIPSIS, "ellipsis");
    (ENDFILE, "end of file");
    (ENDLINE, "end of line");
    (FLOAT, "float");
    (FROM, "from");
    (ID, "identifier");
    (IMPORT, "import");
    (INDENT, "indentation");
    (INF, "inf");
    (INT, "int");
    (INVALID, "invalid");
    (LANGLE, "'<'");
    (LBRACE, "'{'");
    (LBRACKET, "'['");
    (LPAREN, "'('");
    (OPERATOR, "operator");
    (PASS, "pass");
    (RANGLE, "'>'");
    (RBRACE, "'}'");
    (RBRACKET, "']'");
    (RPAREN, "')'");
    (STRING, "string") ].

(** What the statement after the switch returns. *)
Definition unhandled_token_type : string := "unhandled token_type".

(** A switch whose every case returns: the scrutinee [v] (a value of the
    underlying integer type) is compared with the case labels; when no label
    matches, control leaves the switch and reaches [fallback]. *)
Fixpoint switch_return (cases : list (token_type * string)) (v : Z)
  (fallback : string) : string :=
  match cases with
  | [] => fallback
  | (label, s) :: rest =>
      if v =? token_type_value label then s
      else switch_return rest v fallback
  end.

(** The body of [token_type_str] at an arbitrary value of the underlying
    type (an enumeration object can hold one that is no enumerator). *)
Definition token_type_str_at (v : Z) : string :=
  switch_return token_type_str_cases v unhandled_token_type.

(** [constexpr const char *token_type_str(token_type type)]. *)
Definition token_type_str (type : token_type) : string :=
  token_type_str_at (token_type_value type).

(** [constexpr bool token_needs_payload(token_type type)]. *)
Definition token_needs_payload (type : token_type) : bool :=
  match type with
  | FLOAT
  | ID
  | INF
  | INT
  | OPERATOR
  | STRING => true
  | _ => false
  end.

(** ** Token entity *)

(** [std::shared_ptr<File>]: [class File] is only forward-declared by the
    header, so a file is known by a handle; [None] is the empty pointer. *)
Definition File_handle : Type := nat.
Definition File_ptr : Type := option File_handle.

(** Modelled from the spec: [location.h] is missing.  A location is the
    reference to the originating file, the line number, the column offset
    and the length of the lexeme, a plain value record filled from the first
    four constructor arguments. *)
Record Location : Type := mkLocation {
  file : File_ptr;
  line : Z;
  line_offset : Z;
  length : Z
}.

(** [class Token]: the data members, in declaration order.  [value] is a
    [std::string], so it always holds some text. *)
Record Token : Type := mkToken {
  location : Location;
  type : token_type;
  value : string
}.

(** Modelled from the spec: [error.h] is missing.  The one failure the token
    layer knows is the contract violation of a constructor called with a
    category that does not match its payload argument. *)
Inductive Error : Type :=
| ContractViolation.

(** Outcome of a constructor that may throw. *)
Inductive result (A : Type) : Type :=
| Ok (a : A)
| Err (e : Error).

Arguments Ok {A} a.
Arguments Err {A} e.


(** Modelled from the spec: the body of the five-argument constructor
    [Token(file, line, line_offset, length, type)] is missing.  "Construct
    (no payload): precondition [requires_payload(category)] is false; result:
    a Token with empty payload"; a violated precondition fails fast with a
    contract-violation error (the signature accepts every category, so the
    mismatch is representable and has to be refused at run time). *)
Definition Token_new (f : File_ptr) (ln off len : Z) (ty : token_type)
  : result Token :=
  if token_needs_payload ty then Err ContractViolation
  else Ok {| location := mkLocation f ln off len;
             type := ty;
             value := EmptyString |}.

(** Modelled from the spec: the body of the six-argument constructor
    [Token(file, line, line_offset, length, type, value)] is missing.
    "Construct (with payload): inputs as above plus a text value;
    precondition [requires_payload(category)] is true; same failure policy
    on violation". *)
Definition Token_new_payload (f : File_ptr) (ln off len : Z)
  (ty : token_type) (v : string) : result Token :=
  if token_needs_payload ty
  then Ok {| location := mkLocation f ln off len;
             type := ty;
             value := v |}
  else Err ContractViolation.

(** Modelled from the spec: the body of [Token::get] is missing.  It
    "returns the stored payload"; the return type is a reference to a
    string, and on a token without payload that string is the empty one. *)
Definition Token_get (t : Token) : string := value t.

(** Modelled from the spec: the body of [Token::exists] is missing.
    [has_payload] is "true iff this instance carries a payload
    (equivalently, iff it was built via the payload constructor / iff
    [requires_payload(category)] held at construction)".  The category is
    fixed at construction, so on the object the last reading is
    [token_needs_payload] of its category. *)
Definition Token_exists (t : Token) : bool :=
  token_needs_payload (type t).

(** Modelled from the spec: the body of [Token::is_endmarker] is missing.
    "True iff category is one of ENDLINE, ENDFILE". *)
Definition Token_is_endmarker (t : Token) : bool :=
  match type t with
  | ENDFILE
  | ENDLINE => true
  | _ => false
  end.

Section Grammar.

(** The spec leaves two things to its surroundings: which of the kinds
    INT, FLOAT, INF and OPERATOR the grammar uses as content, and the exact
    layout of the diagnostic rendering of a token. *)
Variable grammar_content : token_type -> bool.
Variable render : string -> option string -> string.

(** Modelled from the spec: the body of [Token::is_content] is missing.
    The content kinds are those "actually usable as a value or reference
    target (at minimum ID and STRING)"; "every content-kind requires a
    payload", and the membership of OPERATOR, INT, FLOAT and INF is the
    grammar's decision. *)
Definition Token_is_content (t : Token) : bool :=
  match type t with
  | ID
  | STRING => true
  | FLOAT
  | INF
  | INT
  | OPERATOR => grammar_content (type t)
  | _ => false
  end.

(** Modelled from the spec: the body of [Token::str] is missing.  It
    "renders a diagnostic form combining [name(category)] and, if present,
    the payload"; the layout is [render]. *)
Definition Token_str (t : Token) : string :=
  render (token_type_str (type t))
         (if Token_exists t then Some (Token_get t) else None).

End Grammar.

(** ** Vocabulary of the specification *)

(** The categories the spec lists as payload-bearing. *)
Definition payload_categories : list token_type :=
  [FLOAT; ID; INF; INT; OPERATOR; STRING].

(** A glyph "enclosed in single quotes". *)
Definition quoted (glyph : string) : string :=
  "'" ++ glyph ++ "'".

(** The labels the switch of [token_type_str] can return. *)
Definition variant_labels : list string :=
  map snd token_type_str_cases.

(** ** The classification switch on the underlying value *)

(** The case labels of the switch in [token_needs_payload], in source
    order; they share the one [return true]. *)
Definition token_needs_payload_cases : list token_type :=
  [FLOAT; ID; INF; INT; OPERATOR; STRING].

(** The body of [token_needs_payload] at an arbitrary value of the
    underlying type: a value that equals one of the case labels returns
    [true], every other value is taken by [default] and returns [false]. *)
Definition token_needs_payload_at (v : Z) : bool :=
  existsb (fun label => v =? token_type_value label) token_needs_payload_cases.

(** The eight categories named after the four [bracket_type] enumerators,
    an opening and a closing one for each. *)
Definition bracket_token_types : list token_type :=
  [LANGLE; LBRACE; LBRACKET; LPAREN; RANGLE; RBRACE; RBRACKET; RPAREN].

(** * Properties of the taxonomy *)

Example token_type_str_LPAREN : token_type_str LPAREN = "'('".
Proof. reflexivity. Qed.

Example token_type_str_COLON : token_type_str COLON = "colon".
Proof. reflexivity. Qed.

Example token_needs_payload_INT : token_needs_payload INT = true.
Proof. reflexivity. Qed.

Lemma all_token_types_complete (c : token_type) : In c all_token_types.
Proof. destruct c; simpl; tauto. Qed.

Lemma all_token_types_count : List.length all_token_types = 29%nat.
Proof. reflexivity. Qed.

Lemma token_type_str_cases_count : List.length token_type_str_cases = 29%nat.
Proof. reflexivity. Qed.

Lemma token_type_value_range (c : token_type) : 0 <= token_type_value c <= 28.
Proof. destruct c; simpl; lia. Qed.

Lemma token_type_value_inj (a b : token_type) :
  token_type_value a = token_type_value b -> a = b.
Proof. destruct a; destruct b; simpl; intro H; (reflexivity || discriminate H). Qed.

Lemma token_type_eqb_eq (a b : token_type) : token_type_eqb a b = true <-> a = b.
Proof.
  unfold token_type_eqb. rewrite Z.eqb_eq. split.
  - apply token_type_value_inj.
  - intros ->. reflexivity.
Qed.

(** A scrutinee that equals no case label falls out of the switch. *)
Lemma switch_return_no_match cases v fallback :
  (forall label s, In (label, s) cases -> token_type_value label <> v) ->
  switch_return cases v fallback = fallback.
Proof.
  induction cases as [| [label s] rest IH]; intro Hno; simpl.
  - reflexivity.
  - destruct (Z.eqb_spec v (token_type_value label)) as [Heq | _].
    + exfalso. apply (Hno label s); [left; reflexivity | symmetry; exact Heq].
    + apply IH. intros l' s' Hin. apply (Hno l' s'). right. exact Hin.
Qed.

(** The trailing return is what a value outside the enumeration gets. *)
Lemma token_type_str_at_outside (v : Z) :
  v < 0 \/ 28 < v -> token_type_str_at v = unhandled_token_type.
Proof.
  intro Hout. apply switch_return_no_match.
  intros label s _ Heq. pose proof (token_type_value_range label). lia.
Qed.

(** C1: [token_needs_payload] is true exactly for FLOAT, ID, INF, INT,
    OPERATOR and STRING, and false for every other enumerator. *)
Theorem token_needs_payload_exact (c : token_type) :
  (token_needs_payload c = true <-> In c payload_categories) /\
  (token_needs_payload c = false <-> ~ In c payload_categories).
Proof.
  unfold payload_categories.
  destruct c; simpl; (split; split);
    solve [ intros _; tauto
          | intro H; discriminate H
          | intros _; intro H; repeat (destruct H as [H | H]; [discriminate H |]); exact H
          | intro H; repeat (destruct H as [H | H]; [discriminate H |]); contradiction
          | intro H; exfalso; apply H; tauto
          | reflexivity ].
Qed.

(** C5, as the code has it: the eight bracket categories render their glyph
    enclosed in single quotes; AT and BANG render the bare glyph; COLON,
    COMMA, DOT and ELLIPSIS render their English name; the keywords AS,
    FROM, IMPORT and PASS render their lowercase spelling; INVALID renders
    "invalid". *)
Theorem token_type_str_labels :
  (token_type_str LANGLE = quoted "<" /\ token_type_str RANGLE = quoted ">" /\
   token_type_str LBRACE = quoted "{" /\ token_type_str RBRACE = quoted "}" /\
   token_type_str LBRACKET = quoted "[" /\ token_type_str RBRACKET = quoted "]" /\
   token_type_str LPAREN = quoted "(" /\ token_type_str RPAREN = quoted ")") /\
  (token_type_str AT = "@" /\ token_type_str BANG = "!") /\
  (token_type_str COLON = "colon" /\ token_type_str COMMA = "comma" /\
   token_type_str DOT = "dot" /\ token_type_str ELLIPSIS = "ellipsis") /\
  (token_type_str AS = "as" /\ token_type_str FROM = "from" /\
   token_type_str IMPORT = "import" /\ token_type_str PASS = "pass") /\
  token_type_str INVALID = "invalid".
Proof. repeat split. Qed.

(** A quoted text starts with a single quote. *)
Lemma quoted_head (g : string) : String.get 0 (quoted g) = Some "'"%char.
Proof. reflexivity. Qed.

(** C5 fails at COLON: its label is the word "colon", which is no glyph
    enclosed in single quotes, whatever the glyph. *)
Lemma token_type_str_COLON_not_quoted :
  token_type_str COLON = "colon" /\
  ~ (exists glyph, token_type_str COLON = quoted glyph).
Proof.
  split; [reflexivity |].
  intros [glyph H].
  pose proof (quoted_head glyph) as Hq. rewrite <- H in Hq.
  discriminate Hq.
Qed.

(** The other structural categories whose label is not a quoted glyph. *)
Lemma token_type_str_unquoted_structural (c : token_type) :
  In c [COLON; COMMA; DOT; ELLIPSIS; BANG; AT] ->
  String.get 0 (token_type_str c) <> Some "'"%char.
Proof.
  simpl. intros H.
  repeat (destruct H as [<- | H]; [ discriminate |]). contradiction.
Qed.

(** C6: [token_type_str] yields a string for every enumerator, INVALID
    included, and that string is not empty. *)
Theorem token_type_str_nonempty (c : token_type) :
  exists s, token_type_str c = s /\ s <> EmptyString /\
            (0 < String.length s)%nat.
Proof.
  exists (token_type_str c). split; [reflexivity |].
  destruct c; (split; [discriminate | simpl; lia]).
Qed.

(** C9: for each of the 29 enumerators the switch of [token_type_str]
    returns at that enumerator's own case, so the result is one of the 29
    labels of the switch and never the trailing "unhandled token_type". *)
Theorem token_type_str_never_unhandled (c : token_type) :
  In (c, token_type_str c) token_type_str_cases /\
  In (token_type_str c) variant_labels /\
  token_type_str c <> unhandled_token_type /\
  List.length variant_labels = 29%nat /\
  ~ In unhandled_token_type variant_labels.
Proof.
  assert (Hno : ~ In unhandled_token_type variant_labels).
  { unfold variant_labels, unhandled_token_type. simpl.
    intro H. repeat (destruct H as [H | H]; [discriminate H |]). exact H. }
  assert (Hcase : In (c, token_type_str c) token_type_str_cases).
  { destruct c; simpl; tauto. }
  assert (Hlab : In (token_type_str c) variant_labels).
  { unfold variant_labels. apply (in_map snd) in Hcase. exact Hcase. }
  repeat split; try assumption.
  intro Heq. apply Hno. rewrite <- Heq. exact Hlab.
Qed.

(** * Properties of the token entity *)

Example Token_new_LPAREN :
  Token_new (Some 0%nat) 1 4 1 LPAREN
  = Ok (mkToken (mkLocation (Some 0%nat) 1 4 1) LPAREN EmptyString).
Proof. reflexivity. Qed.

Example Token_new_payload_INT :
  Token_new_payload (Some 0%nat) 3 8 2 INT "42"
  = Ok (mkToken (mkLocation (Some 0%nat) 3 8 2) INT "42").
Proof. reflexivity. Qed.

Example Token_new_payload_ID_roundtrip :
  let t := mkToken (mkLocation (Some 0%nat) 1 0 3) ID "foo" in
  Token_new_payload (Some 0%nat) 1 0 3 ID "foo" = Ok t /\
  Token_exists t = true /\ Token_get t = "foo" /\ Token_is_endmarker t = false.
Proof. repeat split. Qed.





(** C3: the no-payload constructor called with a category that requires a
    payload fails with the contract violation; it returns no token, so none
    with an empty string in place of the payload. *)
Theorem Token_new_rejects_payload_category f ln off len ty :
  token_needs_payload ty = true ->
  Token_new f ln off len ty = Err ContractViolation /\
  (forall t, Token_new f ln off len ty <> Ok t).
Proof.
  intro Hty. unfold Token_new. rewrite Hty.
  split; [reflexivity | intros t H; discriminate H].
Qed.

Lemma Token_new_rejects_payload_category_witness :
  Token_new (Some 0%nat) 7 0 5 STRING = Err ContractViolation /\
  (forall t, Token_new (Some 0%nat) 7 0 5 STRING <> Ok t).
Proof.
  apply (Token_new_rejects_payload_category (Some 0%nat) 7 0 5 STRING).
  reflexivity.
Defined.

(** C4: [is_endmarker()] is true exactly on the categories ENDLINE and
    ENDFILE and false on every other one. *)
Theorem Token_is_endmarker_exact (t : Token) :
  (Token_is_endmarker t = true <-> type t = ENDLINE \/ type t = ENDFILE) /\
  (Token_is_endmarker t = false <-> type t <> ENDLINE /\ type t <> ENDFILE).
Proof.
  unfold Token_is_endmarker.
  destruct (type t); (split; split);
    solve [ intros _; tauto
          | intro H; discriminate H
          | intros [H | H]; discriminate H
          | intros [H1 H2]; exfalso; (apply H1; reflexivity) || (apply H2; reflexivity)
          | intros _; split; discriminate ].
Qed.

Section GrammarFacts.

Variable grammar_content : token_type -> bool.

(** Content kinds carry a payload, whatever the grammar decides. *)
Lemma Token_is_content_needs_payload (t : Token) :
  Token_is_content grammar_content t = true ->
  token_needs_payload (type t) = true.
Proof.
  unfold Token_is_content.
  destruct (type t); intro H; try reflexivity; discriminate H.
Qed.

(** C7: a token of category ID or of category STRING is content. *)
Theorem Token_is_content_ID_STRING (t : Token) :
  type t = ID \/ type t = STRING ->
  Token_is_content grammar_content t = true.
Proof.
  unfold Token_is_content. intros [-> | ->]; reflexivity.
Qed.

End GrammarFacts.

Lemma Token_is_content_ID_STRING_witness :
  Token_is_content (fun _ => false)
    (mkToken (mkLocation None 2 4 3) ID "foo") = true /\
  Token_is_content (fun _ => false)
    (mkToken (mkLocation None 2 10 5) STRING "bar") = true.
Proof.
  split.
  - apply (Token_is_content_ID_STRING (fun _ => false)
             (mkToken (mkLocation None 2 4 3) ID "foo")).
    left. reflexivity.
  - apply (Token_is_content_ID_STRING (fun _ => false)
             (mkToken (mkLocation None 2 10 5) STRING "bar")).
    right. reflexivity.
Defined.

(** * Further properties of the taxonomy *)

(** Every value from 0 to 28 is the value of an enumerator. *)
Lemma enumerator_of_value (v : Z) :
  0 <= v <= 28 -> exists c, token_type_value c = v.
Proof.
  intro Hv.
  assert (Hcases :
    v = 0 \/ v = 1 \/ v = 2 \/ v = 3 \/ v = 4 \/ v = 5 \/ v = 6 \/ v = 7 \/
    v = 8 \/ v = 9 \/ v = 10 \/ v = 11 \/ v = 12 \/ v = 13 \/ v = 14 \/
    v = 15 \/ v = 16 \/ v = 17 \/ v = 18 \/ v = 19 \/ v = 20 \/ v = 21 \/
    v = 22 \/ v = 23 \/ v = 24 \/ v = 25 \/ v = 26 \/ v = 27 \/ v = 28) by lia.
  repeat (destruct Hcases as [-> | Hcases];
          [ first [ now exists AS | now exists AT | now exists BANG
                  | now exists COLON | now exists COMMA | now exists DEDENT
                  | now exists DOT | now exists ENDFILE | now exists ENDLINE
                  | now exists ELLIPSIS | now exists FLOAT | now exists FROM
                  | now exists ID | now exists IMPORT | now exists INDENT
                  | now exists INF | now exists INT | now exists INVALID
                  | now exists LANGLE | now exists LBRACE | now exists LBRACKET
                  | now exists LPAREN | now exists OPERATOR | now exists PASS
                  | now exists RANGLE | now exists RBRACE | now exists RBRACKET
                  | now exists RPAREN ] |]).
  subst v. now exists STRING.
Qed.

(** No category is the label of two cases of the switch in
    [token_type_str]: a scrutinee matches at most one case, so reading the
    cases in source order picks the case the switch jumps to. *)
Lemma token_type_str_cases_NoDup : NoDup (map fst token_type_str_cases).
Proof.
  simpl.
  repeat (constructor;
          [ simpl; intro H;
            repeat (destruct H as [H | H]; [discriminate H |]); exact H |]).
  constructor.
Qed.

(** X1: [token_type_str] gives different categories different labels: a
    label in a diagnostic names one category. *)
Theorem token_type_str_injective (a b : token_type) :
  token_type_str a = token_type_str b <-> a = b.
Proof.
  split.
  - destruct a; destruct b; intro H; (reflexivity || discriminate H).
  - intros ->. reflexivity.
Qed.

(** X2: at a value of the underlying type the body of [token_type_str]
    reaches the trailing return exactly when the value is the value of no
    enumerator, that is, when it lies outside 0..28. *)
Theorem token_type_str_at_unhandled_iff (v : Z) :
  (token_type_str_at v = unhandled_token_type
   <-> ~ (exists c, token_type_value c = v)) /\
  (token_type_str_at v = unhandled_token_type <-> v < 0 \/ 28 < v).
Proof.
  assert (Hin : forall c, token_type_str_at (token_type_value c)
                          <> unhandled_token_type).
  { intro c. destruct c; discriminate. }
  assert (Hrange : token_type_str_at v = unhandled_token_type
                   <-> v < 0 \/ 28 < v).
  { split.
    - intro H.
      destruct (Z_lt_dec v 0) as [Hlo | Hlo]; [left; exact Hlo |].
      destruct (Z_lt_dec 28 v) as [Hhi | Hhi]; [right; exact Hhi |].
      exfalso.
      destruct (enumerator_of_value v) as [c Hc]; [lia |].
      subst v. exact (Hin c H).
    - apply token_type_str_at_outside. }
  split; [| exact Hrange].
  rewrite Hrange. split.
  - intros Hout [c Hc]. pose proof (token_type_value_range c). lia.
  - intro Hno.
    destruct (Z_lt_dec v 0) as [Hlo | Hlo]; [left; exact Hlo |].
    destruct (Z_lt_dec 28 v) as [Hhi | Hhi]; [right; exact Hhi |].
    exfalso. apply Hno. apply enumerator_of_value. lia.
Qed.

(** On the enumerators the switch on the underlying value is
    [token_needs_payload]. *)
Lemma token_needs_payload_at_value (c : token_type) :
  token_needs_payload_at (token_type_value c) = token_needs_payload c.
Proof. destruct c; reflexivity. Qed.

(** X3: at a value of the underlying type the body of
    [token_needs_payload] returns true exactly when the value is the value
    of an enumerator that needs a payload; the default branch answers false
    for every other enumerator and for every value that is no enumerator. *)
Theorem token_needs_payload_at_true_iff (v : Z) :
  (token_needs_payload_at v = true
   <-> exists c, token_type_value c = v /\ token_needs_payload c = true) /\
  (token_needs_payload_at v = false
   <-> forall c, token_type_value c = v -> token_needs_payload c = false).
Proof.
  assert (Htrue : token_needs_payload_at v = true
                  <-> exists c, token_type_value c = v /\
                                token_needs_payload c = true).
  { split.
    - unfold token_needs_payload_at. rewrite existsb_exists.
      intros [c [Hc Hv]]. apply Z.eqb_eq in Hv. exists c. split.
      + symmetry; exact Hv.
      + unfold token_needs_payload_cases in Hc. simpl in Hc.
        repeat (destruct Hc as [<- | Hc]; [reflexivity |]). contradiction.
    - intros [c [<- Hc]]. rewrite token_needs_payload_at_value. exact Hc. }
  split; [exact Htrue |].
  split.
  - intros Hf c <-. rewrite <- token_needs_payload_at_value. exact Hf.
  - intro Hall. apply not_true_is_false. intro E.
    apply Htrue in E as [c [Hc Hp]]. rewrite (Hall c Hc) in Hp. discriminate Hp.
Qed.

(** X4: the label of a category is a text enclosed in single quotes exactly
    for the eight bracket categories; there the quoted text is the one
    character of the bracket, and none of them needs a payload. *)
Theorem token_type_str_quoted_iff_bracket (c : token_type) :
  ((exists glyph, token_type_str c = quoted glyph)
   <-> In c bracket_token_types) /\
  ((exists glyph, token_type_str c = quoted glyph)
   <-> (exists ch, token_type_str c = quoted (String ch EmptyString)) /\
       token_needs_payload c = false).
Proof.
  assert (Hq : (exists glyph, token_type_str c = quoted glyph)
               -> In c bracket_token_types).
  { intros [glyph H]. pose proof (quoted_head glyph) as Hh.
    rewrite <- H in Hh. unfold bracket_token_types.
    destruct c; simpl; try discriminate Hh; tauto. }
  assert (Hb : In c bracket_token_types
               -> (exists ch, token_type_str c = quoted (String ch EmptyString))
                  /\ token_needs_payload c = false).
  { unfold bracket_token_types. simpl. intro H.
    repeat (destruct H as [<- | H];
            [ split; [eexists; reflexivity | reflexivity] |]).
    contradiction. }
  split; split.
  - exact Hq.
  - intro H. apply Hb in H as [[ch Hch] _]. exists (String ch EmptyString).
    exact Hch.
  - intro H. apply Hb. apply Hq. exact H.
  - intros [[ch Hch] _]. exists (String ch EmptyString). exact Hch.
Qed.
